(** * YOSO model configuration

    A shallow embedding of [src/transformers/models/yoso/configuration_yoso.py]:
    the class [YosoConfig], its class attribute [model_type] and its
    initializer [__init__], together with the Python call protocol the
    initializer relies on (binding of positional and keyword arguments,
    the forwarding call to the base initializer, attribute assignment and
    attribute lookup).

    The base class [PretrainedConfig] and the decorator [register] are
    imported by the module and not defined in it.  The base initializer
    is therefore a variable of the development; the decorator is taken to
    hand the class back as it is, and attribute assignment and lookup are
    Python's default ones (the class body defines no [__setattr__],
    [__getattribute__], property or [__slots__]). *)

From Stdlib Require Import ZArith.
From Stdlib Require Import Floats.SpecFloat.
From stdpp Require Import base option list strings gmap fin_maps.

#[local] Set Warnings "-clear-no-such-hyp".

Local Open Scope Z_scope.
Local Open Scope string_scope.

(** ** Python values *)

(** Binary64, the format of a Python [float]. *)
Definition prec : Z := 53.
Definition emax : Z := 1024.

Definition float_of_Z (z : Z) : spec_float := binary_normalize prec emax z 0 false.

(** The float denoted by the decimal literal [m]e-[n], for [m] and [10^n]
    below [2^53]: both are floats exactly, and their quotient rounded to
    nearest even is the float nearest to the decimal. *)
Definition float_literal (m : Z) (n : Z) : spec_float :=
  SFdiv prec emax (float_of_Z m) (float_of_Z (10 ^ n)).

Inductive pyval : Type :=
  | PyNone
  | PyBool (b : bool)
  | PyInt (n : Z)
  | PyFloat (x : spec_float)
  | PyStr (s : string)
  | PyRef (addr : positive).

(** Any other object (a function given as [hidden_act], say) is a
    reference [PyRef], known by its identity only. *)

(** ** Exceptions and results *)

Inductive exn : Type :=
  | TypeError (msg : string)
  | AttributeError (name : string)
  | OtherError (cls : string) (msg : string).

Inductive result (A : Type) : Type :=
  | Ok (a : A)
  | Raise (e : exn).

Arguments Ok {A} a.
Arguments Raise {A} e.

(** Sequencing: an exception ends the computation. *)
#[export] Instance result_bind : MBind result := λ A B k r,
  match r with
  | Ok a => k a
  | Raise e => Raise e
  end.

(** ** Objects *)

(** An instance is its [__dict__]; [setattr] is the default attribute
    assignment. *)
Definition setattr (self : gmap string pyval) (name : string) (v : pyval)
  : gmap string pyval :=
  <[name := v]> self.

(** A run of assignment statements [self.name = v], first to last. *)
Definition assign_all (self : gmap string pyval) (l : list (string * pyval))
  : gmap string pyval :=
  foldl (λ s kv, setattr s kv.1 kv.2) self l.

(** ** The class body *)

(** [model_type = "yoso"] (line 98). *)
Definition model_type : pyval := PyStr "yoso".

(** The data attributes of the class namespace. *)
Definition YosoConfig_namespace : gmap string pyval :=
  {[ "model_type" := model_type ]}.

(** The values of the named parameters of [__init__] in a call. *)
Record Params : Type := {
  vocab_size : pyval;
  hidden_size : pyval;
  num_hidden_layers : pyval;
  num_attention_heads : pyval;
  intermediate_size : pyval;
  hidden_act : pyval;
  hidden_dropout_prob : pyval;
  attention_probs_dropout_prob : pyval;
  max_position_embeddings : pyval;
  type_vocab_size : pyval;
  initializer_range : pyval;
  layer_norm_eps : pyval;
  position_embedding_type : pyval;
  use_expectation : pyval;
  hash_code_len : pyval;
  num_hash : pyval;
  conv_window : pyval;
  use_fast_hash : pyval;
  lsh_backward : pyval;
  pad_token_id : pyval;
  bos_token_id : pyval;
  eos_token_id : pyval
}.

(** The named parameters after [self], in the order of the signature
    (lines 102-123). *)
Definition parameter_names : list string :=
  [ "vocab_size"; "hidden_size"; "num_hidden_layers"; "num_attention_heads";
    "intermediate_size"; "hidden_act"; "hidden_dropout_prob";
    "attention_probs_dropout_prob"; "max_position_embeddings";
    "type_vocab_size"; "initializer_range"; "layer_norm_eps";
    "position_embedding_type"; "use_expectation"; "hash_code_len";
    "num_hash"; "conv_window"; "use_fast_hash"; "lsh_backward";
    "pad_token_id"; "bos_token_id"; "eos_token_id" ].

(** The value a parameter takes in a call: the positional argument at
    its index when there is one, else the keyword argument of its name,
    else its default. *)
Definition argument (pos : list pyval) (kw : gmap string pyval)
    (i : nat) (name : string) (default : pyval) : pyval :=
  match pos !! i with
  | Some v => v
  | None =>
      match kw !! name with
      | Some v => v
      | None => default
      end
  end.

(** All parameters of the signature (lines 101-123): [self] first. *)
Definition signature_names : list string := "self" :: parameter_names.

(** The named parameters that the positional arguments of a call bind. *)
Definition positional_names (pos : list pyval) : list string :=
  take (length pos) parameter_names.

(** The parameters a call binds positionally: [self], bound to the
    instance, and one named parameter for each positional argument. *)
Definition positionally_bound (pos : list pyval) : list string :=
  "self" :: positional_names pos.

(** The keyword arguments that name no parameter of the signature: the
    [**kwargs] of the call. *)
Definition unrecognized (kw : gmap string pyval) : gmap string pyval :=
  filter (λ kv, kv.1 ∉ signature_names) kw.

(** The named parameters of [__init__] as a call binds them, each with
    its default from the signature (lines 102-123). *)
Definition bound_parameters (pos : list pyval) (kw : gmap string pyval)
  : Params :=
  let arg := argument pos kw in
  {| vocab_size := arg 0%nat "vocab_size" (PyInt 50265);
     hidden_size := arg 1%nat "hidden_size" (PyInt 768);
     num_hidden_layers := arg 2%nat "num_hidden_layers" (PyInt 12);
     num_attention_heads := arg 3%nat "num_attention_heads" (PyInt 12);
     intermediate_size := arg 4%nat "intermediate_size" (PyInt 3072);
     hidden_act := arg 5%nat "hidden_act" (PyStr "gelu");
     hidden_dropout_prob :=
       arg 6%nat "hidden_dropout_prob" (PyFloat (float_literal 1 1));
     attention_probs_dropout_prob :=
       arg 7%nat "attention_probs_dropout_prob" (PyFloat (float_literal 1 1));
     max_position_embeddings :=
       arg 8%nat "max_position_embeddings" (PyInt 4096);
     type_vocab_size := arg 9%nat "type_vocab_size" (PyInt 1);
     initializer_range :=
       arg 10%nat "initializer_range" (PyFloat (float_literal 2 2));
     layer_norm_eps :=
       arg 11%nat "layer_norm_eps" (PyFloat (float_literal 1 12));
     position_embedding_type :=
       arg 12%nat "position_embedding_type" (PyStr "absolute");
     use_expectation := arg 13%nat "use_expectation" (PyBool true);
     hash_code_len := arg 14%nat "hash_code_len" (PyInt 9);
     num_hash := arg 15%nat "num_hash" (PyInt 64);
     conv_window := arg 16%nat "conv_window" PyNone;
     use_fast_hash := arg 17%nat "use_fast_hash" (PyBool true);
     lsh_backward := arg 18%nat "lsh_backward" (PyBool true);
     pad_token_id := arg 19%nat "pad_token_id" (PyInt 1);
     bos_token_id := arg 20%nat "bos_token_id" (PyInt 0);
     eos_token_id := arg 21%nat "eos_token_id" (PyInt 2) |}.

(** Binding of the arguments of a call of [YosoConfig], positional [pos]
    and keyword [kw], to the signature of [__init__] (lines 100-125):
    the named parameters and the [**kwargs].  The instance is the first
    positional argument and binds [self]; [pos] are the arguments after
    it.  Python raises [TypeError] for too many positional arguments and
    for a parameter given both positionally and by keyword, [self]
    included. *)
Definition bind_arguments (pos : list pyval) (kw : gmap string pyval)
  : result (Params * gmap string pyval) :=
  if decide (length parameter_names < length pos)%nat then
    Raise (TypeError "too many positional arguments")
  else if decide (Exists (λ n, is_Some (kw !! n)) (positionally_bound pos)) then
    Raise (TypeError "multiple values for argument")
  else Ok (bound_parameters pos kw, unrecognized kw).

(** The keyword arguments of a call [f(k1=v1, ..., **rest)]: Python
    raises [TypeError] when [rest] repeats one of the explicit names. *)
Definition call_keywords (explicit : list (string * pyval))
    (rest : gmap string pyval) : result (gmap string pyval) :=
  if decide (Exists (λ kv, is_Some (rest !! kv.1)) explicit) then
    Raise (TypeError "multiple values for keyword argument")
  else Ok (list_to_map explicit ∪ rest).

(** The token identifiers [__init__] names in the call to the base
    initializer (line 126). *)
Definition token_ids (p : Params) : list (string * pyval) :=
  [ ("pad_token_id", pad_token_id p);
    ("bos_token_id", bos_token_id p);
    ("eos_token_id", eos_token_id p) ].

(** The keyword arguments of the call to the base initializer
    (line 126). *)
Definition super_keywords (p : Params) (kwargs : gmap string pyval)
  : result (gmap string pyval) :=
  call_keywords (token_ids p) kwargs.

(** What that call hands over when no name is repeated. *)
Definition forwarded (p : Params) (kwargs : gmap string pyval)
  : gmap string pyval :=
  list_to_map (token_ids p) ∪ kwargs.

(** The assignment statements of [__init__] (lines 128-146), in order. *)
Definition assignments (p : Params) : list (string * pyval) :=
  [ ("vocab_size", vocab_size p);
    ("max_position_embeddings", max_position_embeddings p);
    ("hidden_size", hidden_size p);
    ("num_hidden_layers", num_hidden_layers p);
    ("num_attention_heads", num_attention_heads p);
    ("intermediate_size", intermediate_size p);
    ("hidden_act", hidden_act p);
    ("hidden_dropout_prob", hidden_dropout_prob p);
    ("attention_probs_dropout_prob", attention_probs_dropout_prob p);
    ("initializer_range", initializer_range p);
    ("type_vocab_size", type_vocab_size p);
    ("layer_norm_eps", layer_norm_eps p);
    ("position_embedding_type", position_embedding_type p);
    ("use_expectation", use_expectation p);
    ("hash_code_len", hash_code_len p);
    ("num_hash", num_hash p);
    ("conv_window", conv_window p);
    ("use_fast_hash", use_fast_hash p);
    ("lsh_backward", lsh_backward p) ].

(** The attributes [__init__] assigns. *)
Definition assigned_names : list string :=
  [ "vocab_size"; "max_position_embeddings"; "hidden_size";
    "num_hidden_layers"; "num_attention_heads"; "intermediate_size";
    "hidden_act"; "hidden_dropout_prob"; "attention_probs_dropout_prob";
    "initializer_range"; "type_vocab_size"; "layer_norm_eps";
    "position_embedding_type"; "use_expectation"; "hash_code_len";
    "num_hash"; "conv_window"; "use_fast_hash"; "lsh_backward" ].

(** The parameters handed to the base initializer. *)
Definition token_id_names : list string :=
  [ "pad_token_id"; "bos_token_id"; "eos_token_id" ].

Section YosoConfig.

(** [PretrainedConfig.__init__(self, **kwargs)]: from the keyword
    arguments and the instance so far, the instance it leaves or the
    exception it raises. *)
Variable PretrainedConfig_init :
  gmap string pyval → gmap string pyval → result (gmap string pyval).

(** The data attributes found on the base classes. *)
Variable PretrainedConfig_namespace : gmap string pyval.

(** [YosoConfig.__init__] (lines 100-146). *)
Definition YosoConfig_init (p : Params) (kwargs : gmap string pyval)
    (self : gmap string pyval) : result (gmap string pyval) :=
  keywords ← super_keywords p kwargs;
  self ← PretrainedConfig_init keywords self;
  Ok (assign_all self (assignments p)).

(** A call of [YosoConfig] with positional arguments [pos] and keyword
    arguments [kw]: a fresh instance, initialized. *)
Definition YosoConfig_new (pos : list pyval) (kw : gmap string pyval)
  : result (gmap string pyval) :=
  bound ← bind_arguments pos kw;
  YosoConfig_init bound.1 bound.2 ∅.

(** [self.name]: the instance, then the class, then its bases. *)
Definition getattr (self : gmap string pyval) (name : string)
  : result pyval :=
  match self !! name with
  | Some v => Ok v
  | None =>
      match YosoConfig_namespace !! name with
      | Some v => Ok v
      | None =>
          match PretrainedConfig_namespace !! name with
          | Some v => Ok v
          | None => Raise (AttributeError name)
          end
      end
  end.

End YosoConfig.

(** ** Use of an instance

    What the holder of an instance does with it: read an attribute, or
    assign one.  The assignment is the statement [self.name = v] of
    lines 128-146; Python accepts it wherever the instance is held, for
    a class whose body has neither [__slots__] nor [__setattr__]. *)
Inductive operation : Type :=
  | GetAttr (name : string)
  | SetAttr (name : string) (v : pyval).

(** The instance an operation leaves. *)
Definition perform (self : gmap string pyval) (op : operation)
  : gmap string pyval :=
  match op with
  | GetAttr _ => self
  | SetAttr name v => setattr self name v
  end.

(** The instance after a run of operations. *)
Definition lifetime (self : gmap string pyval) (ops : list operation)
  : gmap string pyval :=
  foldl perform self ops.

(** ** Further definitions *)

(** Leibniz equality of values is decidable. *)
#[export] Instance spec_float_eq_dec : EqDecision spec_float.
Proof. solve_decision. Defined.

#[export] Instance pyval_eq_dec : EqDecision pyval.
Proof. solve_decision. Defined.

(** The positional arguments of a call as keyword arguments: each
    positionally bound parameter with its argument. *)
Definition positional_keywords (pos : list pyval) : gmap string pyval :=
  list_to_map (zip (positional_names pos) pos).

(** The defaults the class docstring states (lines 41-81), for the
    parameters it states one for: [conv_window] has none, the token
    identifiers are not listed. *)
Definition documented_defaults : list (string * pyval) :=
  [ ("vocab_size", PyInt 50265);
    ("hidden_size", PyInt 768);
    ("num_hidden_layers", PyInt 12);
    ("num_attention_heads", PyInt 12);
    ("intermediate_size", PyInt 3072);
    ("hidden_act", PyStr "gelu");
    ("hidden_dropout_prob", PyFloat (float_literal 1 1));
    ("attention_probs_dropout_prob", PyFloat (float_literal 1 1));
    ("max_position_embeddings", PyInt 512);
    ("type_vocab_size", PyInt 2);
    ("initializer_range", PyFloat (float_literal 2 2));
    ("layer_norm_eps", PyFloat (float_literal 1 12));
    ("position_embedding_type", PyStr "absolute");
    ("use_expectation", PyBool true);
    ("hash_code_len", PyInt 9);
    ("num_hash", PyInt 64);
    ("use_fast_hash", PyBool false);
    ("lsh_backward", PyBool true) ].


(** ** Sample base initializers

    Instances of the variable [PretrainedConfig_init], for running the
    constructor on concrete calls. *)
Module Samples.

(** Keeps every keyword argument as an attribute. *)
Definition keep_keywords (kw self : gmap string pyval)
  : result (gmap string pyval) :=
  Ok (kw ∪ self).

(** Keeps every keyword argument and, before the derived initializer
    runs, leaves a [hidden_size] of its own. *)
Definition preset_hidden_size (kw self : gmap string pyval)
  : result (gmap string pyval) :=
  Ok (<["hidden_size" := PyInt 0]> (kw ∪ self)).

(** Rejects every call. *)
Definition reject (kw self : gmap string pyval)
  : result (gmap string pyval) :=
  Raise (OtherError "ValueError" "rejected").

End Samples.

(** ** The float literals of the signature *)

Lemma float_literal_0_1 :
  float_literal 1 1 = S754_finite false 7205759403792794 (-56).
Proof. vm_compute. reflexivity. Qed.

Lemma float_literal_0_02 :
  float_literal 2 2 = S754_finite false 5764607523034235 (-58).
Proof. vm_compute. reflexivity. Qed.

Lemma float_literal_1e_12 :
  float_literal 1 12 = S754_finite false 4951760157141521 (-92).
Proof. vm_compute. reflexivity. Qed.

(** Each is within half a unit in the last place of its decimal:
    [|m * 2^e - d / 10^n| <= 2^e / 2], cleared of denominators. *)
Lemma float_literals_nearest :
  (Z.abs (10 * 7205759403792794 - 2 ^ 56) * 2 ≤ 10)%Z ∧
  (Z.abs (100 * 5764607523034235 - 2 * 2 ^ 58) * 2 ≤ 100)%Z ∧
  (Z.abs (10 ^ 12 * 4951760157141521 - 2 ^ 92) * 2 ≤ 10 ^ 12)%Z.
Proof. vm_compute. repeat split; discriminate. Qed.

(** ** Sequencing *)

Lemma bind_Ok {A B} (r : result A) (k : A → result B) (b : B) :
  r ≫= k = Ok b ↔ ∃ a, r = Ok a ∧ k a = Ok b.
Proof.
  destruct r as [a|e]; simpl; naive_solver.
Qed.

Lemma bind_Ok_l {A B} (a : A) (k : A → result B) : Ok a ≫= k = k a.
Proof. reflexivity. Qed.

Lemma Ok_inj {A} (a b : A) : Ok a = Ok b → a = b.
Proof. by intros [= ->]. Qed.

Lemma bind_Raise_l {A B} (e : exn) (k : A → result B) :
  Raise e ≫= k = Raise e.
Proof. reflexivity. Qed.

Lemma bind_Raise {A B} (r : result A) (k : A → result B) (e : exn) :
  r ≫= k = Raise e ↔ r = Raise e ∨ ∃ a, r = Ok a ∧ k a = Raise e.
Proof.
  destruct r as [a|e']; simpl; naive_solver.
Qed.

(** ** Runs of assignments *)

Lemma assign_all_cons self k v l :
  assign_all self ((k, v) :: l) = assign_all (<[k := v]> self) l.
Proof. reflexivity. Qed.

(** An attribute no statement names keeps its value. *)
Lemma lookup_assign_all_notin l self k :
  k ∉ l.*1 → assign_all self l !! k = self !! k.
Proof.
  revert self. induction l as [|[k' v'] l IH]; intros self Hk; [done|].
  rewrite assign_all_cons. rewrite fmap_cons in Hk. simpl in Hk.
  apply not_elem_of_cons in Hk as [Hne Hk].
  rewrite IH by done. by apply lookup_insert_ne.
Qed.

(** An attribute named once holds the value it was assigned. *)
Lemma lookup_assign_all_in l self k v :
  NoDup l.*1 → (k, v) ∈ l → assign_all self l !! k = Some v.
Proof.
  revert self. induction l as [|[k' v'] l IH]; intros self Hnd Hin.
  - by apply elem_of_nil in Hin.
  - rewrite fmap_cons in Hnd. simpl in Hnd.
    apply NoDup_cons in Hnd as [Hk' Hnd]. rewrite assign_all_cons.
    apply elem_of_cons in Hin as [[= <- <-]|Hin].
    + rewrite lookup_assign_all_notin by done. apply lookup_insert_eq.
    + by apply IH.
Qed.

Lemma dom_assign_all l self :
  dom (assign_all self l) = list_to_set l.*1 ∪ dom self.
Proof.
  revert self. induction l as [|[k v] l IH]; intros self.
  - simpl. set_solver.
  - rewrite assign_all_cons, IH, dom_insert_L. rewrite fmap_cons. simpl.
    set_solver.
Qed.

(** ** The names of the signature and of the assignments *)

Lemma assignments_names p : (assignments p).*1 = assigned_names.
Proof. reflexivity. Qed.

Lemma NoDup_parameter_names : NoDup parameter_names.
Proof. apply (bool_decide_unpack _). vm_compute. exact I. Qed.

Lemma NoDup_assigned_names : NoDup assigned_names.
Proof. apply (bool_decide_unpack _). vm_compute. exact I. Qed.

(** The parameters are the assigned attributes and the token
    identifiers. *)
Lemma parameter_names_split k :
  k ∈ parameter_names ↔ k ∈ assigned_names ∨ k ∈ token_id_names.
Proof.
  rewrite !list_elem_of_In.
  unfold parameter_names, assigned_names, token_id_names. simpl. tauto.
Qed.

Lemma assigned_not_token_id k :
  k ∈ assigned_names → k ∉ token_id_names.
Proof.
  rewrite !list_elem_of_In. unfold assigned_names, token_id_names. simpl.
  intros Hk Ht.
  repeat (destruct Hk as [<-|Hk]; [by repeat destruct Ht as [?|Ht]|]).
  done.
Qed.

(** ** Binding of arguments *)

Lemma parameter_in_signature k : k ∈ parameter_names → k ∈ signature_names.
Proof. intros Hk. unfold signature_names. by apply list_elem_of_further. Qed.

Lemma not_signature_not_parameter k :
  k ∉ signature_names → k ∉ parameter_names.
Proof. intros Hk Hp. by apply Hk, parameter_in_signature. Qed.

Lemma not_in_signature k :
  k ∉ parameter_names → k ≠ "self" → k ∉ signature_names.
Proof.
  intros Hp Hs Hin. unfold signature_names in Hin.
  apply elem_of_cons in Hin as [->|Hin]; [by apply Hs | by apply Hp].
Qed.

Lemma lookup_unrecognized kw k v :
  unrecognized kw !! k = Some v ↔ kw !! k = Some v ∧ k ∉ signature_names.
Proof. unfold unrecognized. by rewrite map_lookup_filter_Some. Qed.

(** No [**kwargs] entry bears the name of a parameter. *)
Lemma unrecognized_signature kw k :
  k ∈ signature_names → unrecognized kw !! k = None.
Proof.
  intros Hk. destruct (unrecognized kw !! k) as [v|] eqn:E; [|done].
  apply lookup_unrecognized in E as [_ Hn]. done.
Qed.

Lemma unrecognized_parameter kw k :
  k ∈ parameter_names → unrecognized kw !! k = None.
Proof. intros Hk. by apply unrecognized_signature, parameter_in_signature. Qed.

Lemma unrecognized_other kw k :
  k ∉ signature_names → unrecognized kw !! k = kw !! k.
Proof.
  intros Hk. destruct (kw !! k) as [v|] eqn:E.
  - by apply lookup_unrecognized.
  - destruct (unrecognized kw !! k) as [v|] eqn:E'; [|done].
    apply lookup_unrecognized in E' as [E' _]. congruence.
Qed.

(** When binding succeeds it yields [bound_parameters] and
    [unrecognized], and no keyword names a positionally bound parameter. *)
Lemma bind_arguments_Ok pos kw p kwargs :
  bind_arguments pos kw = Ok (p, kwargs) ↔
    (length pos ≤ length parameter_names)%nat ∧
    Forall (λ n, kw !! n = None) (positionally_bound pos) ∧
    p = bound_parameters pos kw ∧ kwargs = unrecognized kw.
Proof.
  unfold bind_arguments.
  case_decide as Hlen; [split; [done | lia]|].
  case_decide as Hex.
  - split; [done|]. intros (_ & Hall & _). exfalso.
    apply Exists_exists in Hex as (n & Hn & [v Hv]).
    rewrite Forall_forall in Hall. specialize (Hall n Hn). congruence.
  - split.
    + intros [= <- <-]. split_and!; [lia | | done | done].
      apply Forall_forall. intros n Hn.
      destruct (kw !! n) as [v|] eqn:E; [|done].
      exfalso. apply Hex, Exists_exists. eauto.
    + by intros (_ & _ & -> & ->).
Qed.

(** A bound call has no keyword [self]. *)
Lemma bind_arguments_no_self pos kw p kwargs :
  bind_arguments pos kw = Ok (p, kwargs) → kw !! "self" = None.
Proof.
  intros Hbind. apply bind_arguments_Ok in Hbind as (_ & Hall & _).
  rewrite Forall_forall in Hall. apply Hall. apply list_elem_of_here.
Qed.

(** A keyword [self] makes binding fail. *)
Lemma bind_arguments_self pos kw :
  (length pos ≤ length parameter_names)%nat → is_Some (kw !! "self") →
  bind_arguments pos kw = Raise (TypeError "multiple values for argument").
Proof.
  intros Hlen Hself. unfold bind_arguments.
  case_decide as Hlen'; [lia|]. case_decide as Hex; [done|].
  exfalso. apply Hex, Exists_exists. exists "self".
  split; [apply list_elem_of_here | done].
Qed.

(** A call by keywords alone binds unless a keyword is named [self]. *)
Lemma bind_arguments_keywords kw :
  kw !! "self" = None →
  bind_arguments [] kw = Ok (bound_parameters [] kw, unrecognized kw).
Proof.
  intros Hself. apply bind_arguments_Ok.
  split_and!; [simpl; lia | | done | done].
  unfold positionally_bound, positional_names. cbn [length take].
  by repeat constructor.
Qed.

(** A keyword argument reaches the parameter it names. *)
Lemma argument_keyword pos kw i k d v :
  Forall (λ n, kw !! n = None) (positionally_bound pos) →
  parameter_names !! i = Some k → kw !! k = Some v →
  argument pos kw i k d = v.
Proof.
  intros Hall Hi Hk. unfold argument.
  destruct (pos !! i) as [w|] eqn:E; [|by rewrite Hk].
  exfalso. apply lookup_lt_Some in E.
  rewrite Forall_forall in Hall.
  assert (k ∈ positionally_bound pos) as Hin.
  { unfold positionally_bound, positional_names.
    apply list_elem_of_further, list_elem_of_lookup. exists i.
    rewrite lookup_take_lt by done. done. }
  specialize (Hall k Hin). congruence.
Qed.

(** A parameter no argument names takes its default. *)
Lemma argument_default pos kw i k d :
  pos !! i = None → kw !! k = None → argument pos kw i k d = d.
Proof. intros Hp Hk. unfold argument. by rewrite Hp, Hk. Qed.

(** Each assignment stores the argument bound to the parameter of the
    same name. *)
Lemma assignments_bound pos kw k v :
  (k, v) ∈ assignments (bound_parameters pos kw) →
  ∃ i d, parameter_names !! i = Some k ∧ v = argument pos kw i k d.
Proof.
  rewrite list_elem_of_In. unfold assignments, bound_parameters.
  cbn [In]. intros Hkv.
  repeat (destruct Hkv as [[= <- <-]|Hkv];
          [eexists _, _; split; [|reflexivity]; reflexivity|]).
  done.
Qed.

Lemma token_ids_bound pos kw k v :
  (k, v) ∈ token_ids (bound_parameters pos kw) →
  ∃ i d, parameter_names !! i = Some k ∧ v = argument pos kw i k d.
Proof.
  rewrite list_elem_of_In. unfold token_ids, bound_parameters.
  cbn [In]. intros Hkv.
  repeat (destruct Hkv as [[= <- <-]|Hkv];
          [eexists _, _; split; [|reflexivity]; reflexivity|]).
  done.
Qed.

(** Every assigned attribute has its assignment. *)
Lemma assigned_has_assignment p k :
  k ∈ assigned_names → ∃ v, (k, v) ∈ assignments p.
Proof.
  rewrite <- (assignments_names p). intros Hk.
  apply list_elem_of_fmap in Hk as ([k' v] & -> & Hin). eauto.
Qed.

Lemma token_id_has_value p k :
  k ∈ token_id_names → ∃ v, (k, v) ∈ token_ids p.
Proof.
  change token_id_names with (token_ids p).*1. intros Hk.
  apply list_elem_of_fmap in Hk as ([k' v] & -> & Hin). eauto.
Qed.

(** ** The call to the base initializer *)

Lemma token_id_is_parameter k : k ∈ token_id_names → k ∈ parameter_names.
Proof. intros Hk. apply parameter_names_split. by right. Qed.

Lemma assigned_is_parameter k : k ∈ assigned_names → k ∈ parameter_names.
Proof. intros Hk. apply parameter_names_split. by left. Qed.

(** The call never repeats a name: the [**kwargs] of a bound call hold
    no token identifier. *)
Lemma super_keywords_unrecognized p kw :
  super_keywords p (unrecognized kw) = Ok (forwarded p (unrecognized kw)).
Proof.
  unfold super_keywords, call_keywords. case_decide as Hex; [|done].
  exfalso. apply Exists_exists in Hex as ([k v] & Hin & [w Hw]).
  simpl in Hw. rewrite unrecognized_parameter in Hw; [done|].
  apply token_id_is_parameter. change token_id_names with (token_ids p).*1.
  apply list_elem_of_fmap. by exists (k, v).
Qed.

Lemma lookup_forwarded_token p kwargs k v :
  (k, v) ∈ token_ids p → forwarded p kwargs !! k = Some v.
Proof.
  intros Hin. unfold forwarded. apply lookup_union_Some_l.
  apply elem_of_list_to_map; [|done].
  apply (bool_decide_unpack _). vm_compute. exact I.
Qed.

Lemma lookup_forwarded_other p kwargs k :
  k ∉ token_id_names → forwarded p kwargs !! k = kwargs !! k.
Proof.
  intros Hk. unfold forwarded. apply lookup_union_r.
  apply not_elem_of_list_to_map_1. done.
Qed.

Lemma dom_forwarded p kwargs :
  dom (forwarded p kwargs) = list_to_set token_id_names ∪ dom kwargs.
Proof. unfold forwarded. by rewrite dom_union_L, dom_list_to_map_L. Qed.

(** ** The initializer and the constructor, unfolded *)

Section Constructor.

Variable base :
  gmap string pyval → gmap string pyval → result (gmap string pyval).

Lemma YosoConfig_init_unrecognized p kw self :
  YosoConfig_init base p (unrecognized kw) self =
    o' ← base (forwarded p (unrecognized kw)) self;
    Ok (assign_all o' (assignments p)).
Proof.
  unfold YosoConfig_init. by rewrite super_keywords_unrecognized.
Qed.

Lemma YosoConfig_new_bound pos kw p kwargs :
  bind_arguments pos kw = Ok (p, kwargs) →
  YosoConfig_new base pos kw =
    o' ← base (forwarded p kwargs) ∅;
    Ok (assign_all o' (assignments p)).
Proof.
  intros Hb. unfold YosoConfig_new. rewrite Hb, bind_Ok_l.
  apply bind_arguments_Ok in Hb as (_ & _ & _ & ->).
  apply YosoConfig_init_unrecognized.
Qed.

Lemma YosoConfig_new_keywords kw :
  kw !! "self" = None →
  YosoConfig_new base [] kw =
    o' ← base (forwarded (bound_parameters [] kw) (unrecognized kw)) ∅;
    Ok (assign_all o' (assignments (bound_parameters [] kw))).
Proof.
  intros Hself. by apply YosoConfig_new_bound, bind_arguments_keywords.
Qed.

(** A keyword [self] is rejected before the base initializer is
    called. *)
Lemma YosoConfig_new_self pos kw :
  (length pos ≤ length parameter_names)%nat → is_Some (kw !! "self") →
  YosoConfig_new base pos kw
    = Raise (TypeError "multiple values for argument").
Proof.
  intros Hlen Hself. unfold YosoConfig_new.
  by rewrite (bind_arguments_self pos kw Hlen Hself).
Qed.

(** The attributes of a constructed instance: the assigned ones hold
    the parameters, the others are as the base initializer left them. *)
Lemma constructed_assigned o' p k v :
  (k, v) ∈ assignments p → assign_all o' (assignments p) !! k = Some v.
Proof.
  apply lookup_assign_all_in. rewrite assignments_names.
  apply NoDup_assigned_names.
Qed.

Lemma constructed_other o' p k :
  k ∉ assigned_names → assign_all o' (assignments p) !! k = o' !! k.
Proof.
  intros Hk. apply lookup_assign_all_notin. by rewrite assignments_names.
Qed.

End Constructor.

(** A call that constructs an instance had no keyword [self]. *)
Lemma YosoConfig_new_Ok_no_self
    (base : gmap string pyval → gmap string pyval → result (gmap string pyval))
    (pos : list pyval) (kw o : gmap string pyval) :
  YosoConfig_new base pos kw = Ok o → kw !! "self" = None.
Proof.
  intros Hnew. destruct (bind_arguments pos kw) as [[p kwargs]|e] eqn:Hbind.
  - by eapply bind_arguments_no_self.
  - unfold YosoConfig_new in Hnew. rewrite Hbind, bind_Raise_l in Hnew.
    discriminate Hnew.
Qed.

(** ** Tactics for concrete calls *)

(** Membership in a list of closed terms, by evaluation. *)
Ltac in_closed_list :=
  rewrite list_elem_of_In; vm_compute;
  repeat (first [left; reflexivity | right]).

(** A closed keyword map has no keyword [self]. *)
Ltac no_self :=
  first [assumption | apply lookup_empty | vm_compute; reflexivity].

(** An assigned attribute of a constructed instance, for closed
    arguments. *)
Ltac assigned_attribute :=
  apply constructed_assigned; in_closed_list.

Lemma token_id_not_assigned k : k ∈ token_id_names → k ∉ assigned_names.
Proof. intros Ht Ha. by apply (assigned_not_token_id k). Qed.

(** The token identifiers of a constructed instance are as the base
    initializer left them. *)
Lemma constructed_token_id o' p k :
  k ∈ token_id_names → assign_all o' (assignments p) !! k = o' !! k.
Proof. intros Hk. by apply constructed_other, token_id_not_assigned. Qed.

(** ** Defaults *)

(** What a call without arguments hands to the base initializer. *)
Lemma forwarded_defaults :
  forwarded (bound_parameters [] ∅) (unrecognized ∅) =
    {[ "pad_token_id" := PyInt 1; "bos_token_id" := PyInt 0;
       "eos_token_id" := PyInt 2 ]}.
Proof. vm_compute. reflexivity. Qed.

(** C1. A call without arguments gives every listed field the default of
    the signature.  The 18 fields [__init__] assigns hold it as an
    attribute of the constructed instance; the three token identifiers
    take the defaults 1, 0 and 2 as parameters, are handed with these
    values (and nothing else) to the base initializer, and their
    attributes on the instance are those the base initializer left. *)
Theorem defaults_without_arguments
    (base : gmap string pyval → gmap string pyval → result (gmap string pyval))
    (o' : gmap string pyval) :
  base {[ "pad_token_id" := PyInt 1; "bos_token_id" := PyInt 0;
          "eos_token_id" := PyInt 2 ]} ∅ = Ok o' →
  ∃ o, YosoConfig_new base [] ∅ = Ok o ∧
    o !! "vocab_size" = Some (PyInt 50265) ∧
    o !! "hidden_size" = Some (PyInt 768) ∧
    o !! "num_hidden_layers" = Some (PyInt 12) ∧
    o !! "num_attention_heads" = Some (PyInt 12) ∧
    o !! "intermediate_size" = Some (PyInt 3072) ∧
    o !! "hidden_act" = Some (PyStr "gelu") ∧
    o !! "hidden_dropout_prob" = Some (PyFloat (float_literal 1 1)) ∧
    o !! "attention_probs_dropout_prob" = Some (PyFloat (float_literal 1 1)) ∧
    o !! "max_position_embeddings" = Some (PyInt 4096) ∧
    o !! "type_vocab_size" = Some (PyInt 1) ∧
    o !! "initializer_range" = Some (PyFloat (float_literal 2 2)) ∧
    o !! "layer_norm_eps" = Some (PyFloat (float_literal 1 12)) ∧
    o !! "position_embedding_type" = Some (PyStr "absolute") ∧
    o !! "use_expectation" = Some (PyBool true) ∧
    o !! "hash_code_len" = Some (PyInt 9) ∧
    o !! "num_hash" = Some (PyInt 64) ∧
    o !! "use_fast_hash" = Some (PyBool true) ∧
    o !! "lsh_backward" = Some (PyBool true) ∧
    pad_token_id (bound_parameters [] ∅) = PyInt 1 ∧
    bos_token_id (bound_parameters [] ∅) = PyInt 0 ∧
    eos_token_id (bound_parameters [] ∅) = PyInt 2 ∧
    (∀ k, k ∈ token_id_names → o !! k = o' !! k).
Proof.
  intros Hbase. rewrite YosoConfig_new_keywords by no_self.
  rewrite forwarded_defaults, Hbase, bind_Ok_l. eexists. split; [reflexivity|].
  split_and!; try assigned_attribute; try reflexivity.
  intros k Hk. by apply constructed_token_id.
Qed.

(** With a base initializer that keeps its keyword arguments, the token
    identifiers are attributes too. *)
Lemma defaults_without_arguments_witness :
  ∃ o, YosoConfig_new Samples.keep_keywords [] ∅ = Ok o ∧
    o !! "hidden_size" = Some (PyInt 768) ∧
    o !! "max_position_embeddings" = Some (PyInt 4096) ∧
    o !! "pad_token_id" = Some (PyInt 1) ∧
    o !! "bos_token_id" = Some (PyInt 0) ∧
    o !! "eos_token_id" = Some (PyInt 2).
Proof.
  destruct (defaults_without_arguments Samples.keep_keywords _ eq_refl)
    as (o & Hnew & Hattrs).
  exists o. split; [exact Hnew|].
  destruct Hattrs as (_ & Hhs & _ & _ & _ & _ & _ & _ & Hmp & Hrest).
  split; [exact Hhs|]. split; [exact Hmp|].
  do 9 destruct Hrest as [_ Hrest].
  destruct Hrest as (_ & _ & _ & Htok).
  split_and!; (rewrite Htok; [vm_compute; reflexivity | in_closed_list]).
Defined.

(** ** Overrides *)

(** The keywords [hidden_size=512, num_hash=32] name parameters only:
    the base initializer receives the token identifiers alone. *)
Lemma forwarded_hidden_size_num_hash :
  forwarded
    (bound_parameters []
       {[ "hidden_size" := PyInt 512; "num_hash" := PyInt 32 ]})
    (unrecognized {[ "hidden_size" := PyInt 512; "num_hash" := PyInt 32 ]}) =
    {[ "pad_token_id" := PyInt 1; "bos_token_id" := PyInt 0;
       "eos_token_id" := PyInt 2 ]}.
Proof. vm_compute. reflexivity. Qed.

(** C6. [YosoConfig(hidden_size=512, num_hash=32)] has [hidden_size] 512
    and [num_hash] 32; every other field is at its default: the assigned
    ones as attributes, the token identifiers as the parameters handed to
    the base initializer. *)
Theorem override_leaves_other_defaults
    (base : gmap string pyval → gmap string pyval → result (gmap string pyval))
    (o' : gmap string pyval) :
  base {[ "pad_token_id" := PyInt 1; "bos_token_id" := PyInt 0;
          "eos_token_id" := PyInt 2 ]} ∅ = Ok o' →
  ∃ o,
    YosoConfig_new base []
      {[ "hidden_size" := PyInt 512; "num_hash" := PyInt 32 ]} = Ok o ∧
    o !! "hidden_size" = Some (PyInt 512) ∧
    o !! "num_hash" = Some (PyInt 32) ∧
    o !! "vocab_size" = Some (PyInt 50265) ∧
    o !! "num_hidden_layers" = Some (PyInt 12) ∧
    o !! "num_attention_heads" = Some (PyInt 12) ∧
    o !! "intermediate_size" = Some (PyInt 3072) ∧
    o !! "hidden_act" = Some (PyStr "gelu") ∧
    o !! "hidden_dropout_prob" = Some (PyFloat (float_literal 1 1)) ∧
    o !! "attention_probs_dropout_prob" = Some (PyFloat (float_literal 1 1)) ∧
    o !! "max_position_embeddings" = Some (PyInt 4096) ∧
    o !! "type_vocab_size" = Some (PyInt 1) ∧
    o !! "initializer_range" = Some (PyFloat (float_literal 2 2)) ∧
    o !! "layer_norm_eps" = Some (PyFloat (float_literal 1 12)) ∧
    o !! "position_embedding_type" = Some (PyStr "absolute") ∧
    o !! "use_expectation" = Some (PyBool true) ∧
    o !! "hash_code_len" = Some (PyInt 9) ∧
    o !! "conv_window" = Some PyNone ∧
    o !! "use_fast_hash" = Some (PyBool true) ∧
    o !! "lsh_backward" = Some (PyBool true) ∧
    (∀ k, k ∈ token_id_names → o !! k = o' !! k).
Proof.
  intros Hbase.
  rewrite YosoConfig_new_keywords by no_self.
  rewrite forwarded_hidden_size_num_hash, Hbase, bind_Ok_l. eexists. split; [reflexivity|].
  split_and!; try assigned_attribute.
  intros k Hk. by apply constructed_token_id.
Qed.

Lemma override_leaves_other_defaults_witness :
  ∃ o,
    YosoConfig_new Samples.keep_keywords []
      {[ "hidden_size" := PyInt 512; "num_hash" := PyInt 32 ]} = Ok o ∧
    o !! "hidden_size" = Some (PyInt 512) ∧
    o !! "num_hash" = Some (PyInt 32) ∧
    o !! "vocab_size" = Some (PyInt 50265) ∧
    o !! "pad_token_id" = Some (PyInt 1).
Proof.
  destruct (override_leaves_other_defaults Samples.keep_keywords _ eq_refl)
    as (o & Hnew & Hhs & Hnh & Hvs & Hrest).
  exists o. split_and!; [exact Hnew | exact Hhs | exact Hnh | exact Hvs |].
  do 16 destruct Hrest as [_ Hrest].
  rewrite Hrest; [vm_compute; reflexivity | in_closed_list].
Defined.

(** ** The optional field *)

(** Of all defaults of the signature, that of [conv_window] alone is
    [None]. *)
Lemma default_None_iff_conv_window k v :
  (k, v) ∈ (assignments (bound_parameters [] ∅)
              ++ token_ids (bound_parameters [] ∅))%list →
  v = PyNone ↔ k = "conv_window".
Proof.
  rewrite list_elem_of_In. vm_compute. intros H.
  repeat (destruct H as [[= <- <-]|H];
          [split; intros E; first [reflexivity | discriminate E]|]).
  destruct H.
Qed.

(** C8. A call that gives no [conv_window], neither by position nor by
    keyword, constructs an instance whose [conv_window] is [None]; every
    other parameter of the signature has a default that is not [None]. *)
Theorem conv_window_defaults_to_None
    (base : gmap string pyval → gmap string pyval → result (gmap string pyval))
    (pos : list pyval) (kw : gmap string pyval)
    (p : Params) (kwargs o' : gmap string pyval) :
  bind_arguments pos kw = Ok (p, kwargs) →
  pos !! 16%nat = None →
  kw !! "conv_window" = None →
  base (forwarded p kwargs) ∅ = Ok o' →
  (∃ o, YosoConfig_new base pos kw = Ok o ∧
        o !! "conv_window" = Some PyNone) ∧
  (∀ k v, (k, v) ∈ (assignments (bound_parameters [] ∅)
                      ++ token_ids (bound_parameters [] ∅))%list →
          v = PyNone ↔ k = "conv_window").
Proof.
  intros Hbind Hpos Hkw Hbase. split; [|apply default_None_iff_conv_window].
  rewrite (YosoConfig_new_bound base pos kw p kwargs Hbind), Hbase, bind_Ok_l.
  eexists. split; [reflexivity|].
  apply constructed_assigned.
  apply bind_arguments_Ok in Hbind as (_ & _ & -> & _).
  replace PyNone with (conv_window (bound_parameters pos kw)).
  - rewrite list_elem_of_In. unfold assignments. cbn [In]. tauto.
  - unfold bound_parameters. cbn [conv_window]. by apply argument_default.
Qed.

Lemma conv_window_defaults_to_None_witness :
  ∃ o,
    YosoConfig_new Samples.keep_keywords [PyInt 30000]
      {[ "num_hash" := PyInt 32 ]} = Ok o ∧
    o !! "conv_window" = Some PyNone.
Proof.
  refine (proj1 (conv_window_defaults_to_None Samples.keep_keywords
                   [PyInt 30000] {[ "num_hash" := PyInt 32 ]}
                   _ _ _ _ _ _ _)).
  - apply bind_arguments_Ok. split_and!; [simpl; lia | | reflexivity..].
    repeat constructor.
  - reflexivity.
  - vm_compute. reflexivity.
  - reflexivity.
Defined.

(** ** Pass-through of arguments *)

(** A keyword argument naming an assigned field is the value the
    assignment stores. *)
Lemma assignment_of_keyword pos kw p kwargs k v V :
  bind_arguments pos kw = Ok (p, kwargs) →
  (k, v) ∈ assignments p → kw !! k = Some V → v = V.
Proof.
  intros Hbind Hin Hk.
  apply bind_arguments_Ok in Hbind as (_ & Hall & -> & _).
  apply assignments_bound in Hin as (i & d & Hi & ->).
  by apply argument_keyword.
Qed.

Lemma token_id_of_keyword pos kw p kwargs k v V :
  bind_arguments pos kw = Ok (p, kwargs) →
  (k, v) ∈ token_ids p → kw !! k = Some V → v = V.
Proof.
  intros Hbind Hin Hk.
  apply bind_arguments_Ok in Hbind as (_ & Hall & -> & _).
  apply token_ids_bound in Hin as (i & d & Hi & ->).
  by apply argument_keyword.
Qed.

(** C2. A keyword argument [F=V] naming a parameter passes through
    unchanged, whatever the value: when [F] is one of the 19 fields
    [__init__] assigns, the constructed instance has attribute [F] equal
    to [V]; when [F] is a token identifier, [V] is what the base
    initializer receives under [F], and the attribute is as the base
    initializer left it. *)
Theorem keyword_argument_stored_unchanged
    (base : gmap string pyval → gmap string pyval → result (gmap string pyval))
    (pos : list pyval) (kw : gmap string pyval)
    (p : Params) (kwargs o' : gmap string pyval)
    (F : string) (V : pyval) :
  bind_arguments pos kw = Ok (p, kwargs) →
  base (forwarded p kwargs) ∅ = Ok o' →
  kw !! F = Some V →
  ∃ o, YosoConfig_new base pos kw = Ok o ∧
    (F ∈ assigned_names → o !! F = Some V) ∧
    (F ∈ token_id_names →
       forwarded p kwargs !! F = Some V ∧ o !! F = o' !! F).
Proof.
  intros Hbind Hbase HF.
  rewrite (YosoConfig_new_bound base pos kw p kwargs Hbind), Hbase, bind_Ok_l.
  eexists. split; [reflexivity|]. split.
  - intros Ha. destruct (assigned_has_assignment p F Ha) as [v Hv].
    rewrite (constructed_assigned o' p F v Hv). f_equal.
    by eapply assignment_of_keyword.
  - intros Ht. split; [|by apply constructed_token_id].
    destruct (token_id_has_value p F Ht) as [v Hv].
    rewrite (lookup_forwarded_token p kwargs F v Hv). f_equal.
    by eapply token_id_of_keyword.
Qed.

Lemma keyword_argument_stored_unchanged_witness :
  ∃ o,
    YosoConfig_new Samples.keep_keywords []
      {[ "hidden_act" := PyRef 7 ]} = Ok o ∧
    o !! "hidden_act" = Some (PyRef 7).
Proof.
  assert (({[ "hidden_act" := PyRef 7 ]} : gmap string pyval) !! "self"
          = None) as Hself by no_self.
  destruct (keyword_argument_stored_unchanged Samples.keep_keywords
              [] {[ "hidden_act" := PyRef 7 ]} _ _ _ "hidden_act" (PyRef 7)
              (bind_arguments_keywords _ Hself) eq_refl)
    as (o & Hnew & Hassigned & _).
  - vm_compute. reflexivity.
  - exists o. split; [exact Hnew|]. apply Hassigned. in_closed_list.
Defined.

(** ** No validation *)

(** C4. [__init__] raises nothing of its own and checks no value: a call
    by keywords, none of them the parameter [self], raises exactly when
    the base initializer does, with the same exception, and otherwise
    constructs an instance on which every assigned field holds the value
    given, whatever it is; a value given for a token identifier goes to
    the base initializer as it is. *)
Theorem construction_accepts_every_value
    (base : gmap string pyval → gmap string pyval → result (gmap string pyval))
    (kw : gmap string pyval) :
  kw !! "self" = None →
  (∀ e, YosoConfig_new base [] kw = Raise e ↔
        base (forwarded (bound_parameters [] kw) (unrecognized kw)) ∅
          = Raise e) ∧
  (∀ o', base (forwarded (bound_parameters [] kw) (unrecognized kw)) ∅
           = Ok o' →
     ∃ o, YosoConfig_new base [] kw = Ok o ∧
          ∀ F V, F ∈ assigned_names → kw !! F = Some V → o !! F = Some V) ∧
  (∀ F V, F ∈ token_id_names → kw !! F = Some V →
     forwarded (bound_parameters [] kw) (unrecognized kw) !! F = Some V).
Proof.
  intros Hself.
  pose proof (bind_arguments_keywords kw Hself) as Hbind.
  rewrite (YosoConfig_new_keywords base kw Hself). split_and!.
  - intros e. rewrite bind_Raise. split.
    + intros [He|(o' & _ & [=])]. exact He.
    + intros He. by left.
  - intros o' Hbase. rewrite Hbase, bind_Ok_l.
    eexists. split; [reflexivity|]. intros F V Ha HF.
    destruct (assigned_has_assignment (bound_parameters [] kw) F Ha)
      as [v Hv].
    rewrite (constructed_assigned o' _ F v Hv). f_equal.
    by eapply assignment_of_keyword.
  - intros F V Ht HF.
    destruct (token_id_has_value (bound_parameters [] kw) F Ht) as [v Hv].
    rewrite (lookup_forwarded_token _ _ F v Hv). f_equal.
    by eapply token_id_of_keyword.
Qed.

(** A negative layer count is stored as it is. *)
Lemma construction_accepts_every_value_witness :
  ∃ o,
    YosoConfig_new Samples.keep_keywords []
      {[ "num_hidden_layers" := PyInt (-5) ]} = Ok o ∧
    o !! "num_hidden_layers" = Some (PyInt (-5)).
Proof.
  assert (({[ "num_hidden_layers" := PyInt (-5) ]} : gmap string pyval)
            !! "self" = None) as Hself by no_self.
  destruct (construction_accepts_every_value Samples.keep_keywords
              {[ "num_hidden_layers" := PyInt (-5) ]} Hself)
    as (_ & Hstored & _).
  destruct (Hstored _ eq_refl) as (o & Hnew & Hattr).
  exists o. split; [exact Hnew|].
  apply Hattr; [in_closed_list | vm_compute; reflexivity].
Defined.

(** ** Unrecognized keywords *)

(** C5, as stated, fails: [self] is none of the listed parameters, yet a
    keyword of that name is rejected by the constructor itself, with a
    base initializer that accepts everything.  [self] is the first
    parameter of the signature and is bound to the instance. *)
Lemma keyword_self_is_rejected :
  ¬ (∀ (kw : gmap string pyval) (k : string) (v : pyval),
       k ∉ parameter_names → kw !! k = Some v →
       ∃ o, YosoConfig_new Samples.keep_keywords [] kw = Ok o).
Proof.
  intros Hforwarded.
  destruct (Hforwarded {[ "self" := PyInt 1 ]} "self" (PyInt 1))
    as [o Ho].
  - apply (bool_decide_unpack _). vm_compute. exact I.
  - apply lookup_singleton_eq.
  - rewrite (YosoConfig_new_self Samples.keep_keywords [] _) in Ho.
    + discriminate Ho.
    + simpl. lia.
    + rewrite lookup_singleton_eq. by eexists.
Qed.

(** C5, amended.  A keyword argument that names neither a listed
    parameter nor [self] is not rejected by [__init__]: a call by
    keywords without [self] always binds, the call to the base
    initializer never repeats a name, and the base initializer receives
    every unrecognized keyword with its value, the three token
    identifiers with the values of the parameters, and none of the 19
    assigned parameters; the constructor then does what the base
    initializer's outcome dictates.  A keyword [self] is rejected with a
    [TypeError] before the base initializer is called. *)
Theorem unrecognized_keywords_forwarded
    (base : gmap string pyval → gmap string pyval → result (gmap string pyval))
    (kw : gmap string pyval) :
  (kw !! "self" = None →
     bind_arguments [] kw = Ok (bound_parameters [] kw, unrecognized kw) ∧
     super_keywords (bound_parameters [] kw) (unrecognized kw) =
       Ok (forwarded (bound_parameters [] kw) (unrecognized kw)) ∧
     YosoConfig_new base [] kw =
       (o' ← base (forwarded (bound_parameters [] kw) (unrecognized kw)) ∅;
        Ok (assign_all o' (assignments (bound_parameters [] kw)))) ∧
     (∀ k v, k ∉ parameter_names → kw !! k = Some v →
        forwarded (bound_parameters [] kw) (unrecognized kw) !! k = Some v) ∧
     (∀ k v, (k, v) ∈ token_ids (bound_parameters [] kw) →
        forwarded (bound_parameters [] kw) (unrecognized kw) !! k = Some v) ∧
     (∀ k, k ∈ assigned_names →
        forwarded (bound_parameters [] kw) (unrecognized kw) !! k = None)) ∧
  (is_Some (kw !! "self") →
     YosoConfig_new base [] kw
       = Raise (TypeError "multiple values for argument")).
Proof.
  split.
  - intros Hself. split_and!.
    + by apply bind_arguments_keywords.
    + apply super_keywords_unrecognized.
    + by apply YosoConfig_new_keywords.
    + intros k v Hk Hkw. rewrite lookup_forwarded_other.
      * apply lookup_unrecognized. split; [done|].
        apply not_in_signature; [done|]. intros ->. congruence.
      * intros Ht. by apply Hk, token_id_is_parameter.
    + intros k v Hin. by apply lookup_forwarded_token.
    + intros k Hk. rewrite lookup_forwarded_other.
      * by apply unrecognized_parameter, assigned_is_parameter.
      * by apply assigned_not_token_id.
  - intros Hself. apply YosoConfig_new_self; [simpl; lia | done].
Qed.

(** The keyword [num_labels] names no parameter and reaches the base
    initializer with its value. *)
Lemma unrecognized_keywords_forwarded_witness :
  forwarded (bound_parameters [] {[ "num_labels" := PyInt 3 ]})
    (unrecognized {[ "num_labels" := PyInt 3 ]}) !! "num_labels"
  = Some (PyInt 3).
Proof.
  assert (({[ "num_labels" := PyInt 3 ]} : gmap string pyval) !! "self"
          = None) as Hself by no_self.
  destruct (proj1 (unrecognized_keywords_forwarded Samples.keep_keywords
                     {[ "num_labels" := PyInt 3 ]}) Hself)
    as (_ & _ & _ & Hforwarded & _).
  apply Hforwarded.
  - apply (bool_decide_unpack _). vm_compute. exact I.
  - apply lookup_singleton_eq.
Defined.

(** ** Order of the base call and the assignments *)

Lemma super_keywords_empty p : super_keywords p ∅ = Ok (forwarded p ∅).
Proof.
  unfold super_keywords, call_keywords. case_decide as Hex; [|done].
  exfalso. apply Exists_exists in Hex as (kv & _ & [w Hw]).
  by rewrite lookup_empty in Hw.
Qed.

(** C10. The assignments run on the instance the base initializer
    returns: when it raises, [__init__] raises the same and assigns
    nothing; when it returns, each of the 19 assigned attributes ends as
    the parameter of its name, whatever the base initializer had put
    there, and every other attribute is as the base initializer left it. *)
Theorem assignments_follow_base_initializer
    (base : gmap string pyval → gmap string pyval → result (gmap string pyval))
    (p : Params) (kwargs self fwd : gmap string pyval) :
  super_keywords p kwargs = Ok fwd →
  (∀ e, base fwd self = Raise e →
        YosoConfig_init base p kwargs self = Raise e) ∧
  (∀ o', base fwd self = Ok o' →
     ∃ o, YosoConfig_init base p kwargs self = Ok o ∧
          (∀ k v, (k, v) ∈ assignments p → o !! k = Some v) ∧
          (∀ k, k ∉ assigned_names → o !! k = o' !! k)).
Proof.
  intros Hfwd. unfold YosoConfig_init. rewrite Hfwd, bind_Ok_l. split.
  - intros e He. by rewrite He.
  - intros o' Ho'. rewrite Ho', bind_Ok_l. eexists. split; [reflexivity|].
    split.
    + intros k v. apply constructed_assigned.
    + intros k. apply constructed_other.
Qed.

(** The base initializer leaves a [hidden_size] of 0; the instance has
    the 512 of the call. *)
Lemma assignments_follow_base_initializer_witness :
  ∃ o' o,
    Samples.preset_hidden_size
      (forwarded (bound_parameters [] {[ "hidden_size" := PyInt 512 ]}) ∅)
      ∅ = Ok o' ∧
    o' !! "hidden_size" = Some (PyInt 0) ∧
    YosoConfig_init Samples.preset_hidden_size
      (bound_parameters [] {[ "hidden_size" := PyInt 512 ]}) ∅ ∅ = Ok o ∧
    o !! "hidden_size" = Some (PyInt 512).
Proof.
  destruct (proj2 (assignments_follow_base_initializer
                     Samples.preset_hidden_size
                     (bound_parameters [] {[ "hidden_size" := PyInt 512 ]})
                     ∅ ∅ _ (super_keywords_empty _)) _ eq_refl)
    as (o & Hinit & Hassigned & _).
  eexists _, o. split; [reflexivity|]. split; [apply lookup_insert_eq|].
  split; [exact Hinit|]. apply Hassigned. in_closed_list.
Defined.

(** ** Determinism *)

(** C9. Two calls with the same arguments construct instances that
    agree on the 19 assigned attributes, even when the base initializer
    behaves differently in the two calls; with the same base initializer
    the instances are equal, so every attribute read, [model_type]
    among them, gives the same on both. *)
Theorem construction_deterministic
    (base1 base2 :
       gmap string pyval → gmap string pyval → result (gmap string pyval))
    (namespace : gmap string pyval)
    (pos : list pyval) (kw o1 o2 : gmap string pyval) :
  YosoConfig_new base1 pos kw = Ok o1 →
  YosoConfig_new base2 pos kw = Ok o2 →
  (∀ k, k ∈ assigned_names →
        o1 !! k = o2 !! k ∧ getattr namespace o1 k = getattr namespace o2 k) ∧
  (base1 = base2 →
     o1 = o2 ∧
     getattr namespace o1 "model_type" = getattr namespace o2 "model_type").
Proof.
  intros H1 H2. split.
  - intros k Hk.
    destruct (bind_arguments pos kw) as [[p kwargs]|e] eqn:Hbind.
    2:{ unfold YosoConfig_new in H1. rewrite Hbind, bind_Raise_l in H1.
        discriminate H1. }
    rewrite (YosoConfig_new_bound base1 pos kw p kwargs Hbind) in H1.
    rewrite (YosoConfig_new_bound base2 pos kw p kwargs Hbind) in H2.
    destruct (base1 (forwarded p kwargs) ∅) as [o1'|e1];
      [rewrite bind_Ok_l in H1 | rewrite bind_Raise_l in H1; discriminate H1].
    destruct (base2 (forwarded p kwargs) ∅) as [o2'|e2];
      [rewrite bind_Ok_l in H2 | rewrite bind_Raise_l in H2; discriminate H2].
    apply Ok_inj in H1, H2. subst o1 o2.
    destruct (assigned_has_assignment p k Hk) as [v Hv].
    assert (assign_all o1' (assignments p) !! k
            = assign_all o2' (assignments p) !! k) as Heq.
    { by rewrite !(constructed_assigned _ p k v Hv). }
    split; [exact Heq|]. unfold getattr. by rewrite Heq.
  - intros <-. rewrite H1 in H2. apply Ok_inj in H2. by subst o2.
Qed.

Lemma construction_deterministic_witness :
  ∃ o1 o2,
    YosoConfig_new Samples.keep_keywords [] {[ "num_hash" := PyInt 32 ]}
      = Ok o1 ∧
    YosoConfig_new Samples.preset_hidden_size [] {[ "num_hash" := PyInt 32 ]}
      = Ok o2 ∧
    o1 !! "hidden_size" = o2 !! "hidden_size" ∧
    o1 !! "num_hash" = o2 !! "num_hash".
Proof.
  eexists _, _.
  assert (∀ o1 o2,
    YosoConfig_new Samples.keep_keywords [] {[ "num_hash" := PyInt 32 ]}
      = Ok o1 →
    YosoConfig_new Samples.preset_hidden_size [] {[ "num_hash" := PyInt 32 ]}
      = Ok o2 →
    o1 !! "hidden_size" = o2 !! "hidden_size" ∧
    o1 !! "num_hash" = o2 !! "num_hash") as Hagree.
  { intros o1 o2 H1 H2.
    destruct (construction_deterministic Samples.keep_keywords
                Samples.preset_hidden_size ∅ [] _ o1 o2 H1 H2) as [Hall _].
    split; apply Hall; in_closed_list. }
  split; [|split]; [| |apply Hagree];
    rewrite YosoConfig_new_keywords by no_self; reflexivity.
Defined.

(** ** The type tag *)

Lemma model_type_not_assigned : "model_type" ∉ assigned_names.
Proof. apply (bool_decide_unpack _). vm_compute. exact I. Qed.

Lemma model_type_not_in_signature : "model_type" ∉ signature_names.
Proof. apply (bool_decide_unpack _). vm_compute. exact I. Qed.

Lemma model_type_not_token_id : "model_type" ∉ token_id_names.
Proof. apply (bool_decide_unpack _). vm_compute. exact I. Qed.

(** C3, as stated, fails: the tag read on an instance depends on the
    arguments.  With a base initializer that keeps the keywords it is
    given, the call with the keyword [model_type="bert"] constructs an
    instance whose [model_type] reads ["bert"]. *)
Lemma model_type_follows_keyword :
  ¬ (∀ (kw o : gmap string pyval),
       YosoConfig_new Samples.keep_keywords [] kw = Ok o →
       getattr ∅ o "model_type" = Ok (PyStr "yoso")).
Proof.
  intros Htag.
  assert (({[ "model_type" := PyStr "bert" ]} : gmap string pyval) !! "self"
          = None) as Hself by no_self.
  specialize (Htag {[ "model_type" := PyStr "bert" ]} _
                (YosoConfig_new_keywords Samples.keep_keywords _ Hself)).
  unfold getattr in Htag.
  rewrite (constructed_other _ _ _ model_type_not_assigned) in Htag.
  vm_compute in Htag. discriminate Htag.
Qed.

(** C3, amended.  [model_type] is the class attribute ["yoso"], and
    [__init__] never assigns it: the instance has the [model_type] the
    base initializer left it, if any.  Read on a constructed instance,
    the tag is that value when there is one and ["yoso"] otherwise; a
    keyword [model_type] names no parameter and is handed to the base
    initializer. *)
Theorem model_type_read_on_instance
    (base : gmap string pyval → gmap string pyval → result (gmap string pyval))
    (namespace : gmap string pyval)
    (pos : list pyval) (kw : gmap string pyval)
    (p : Params) (kwargs o' : gmap string pyval) :
  bind_arguments pos kw = Ok (p, kwargs) →
  base (forwarded p kwargs) ∅ = Ok o' →
  ∃ o, YosoConfig_new base pos kw = Ok o ∧
       o !! "model_type" = o' !! "model_type" ∧
       getattr namespace o "model_type"
         = Ok (default (PyStr "yoso") (o' !! "model_type")) ∧
       (∀ w, kw !! "model_type" = Some w →
             forwarded p kwargs !! "model_type" = Some w).
Proof.
  intros Hbind Hbase.
  assert (YosoConfig_namespace !! "model_type" = Some (PyStr "yoso")) as Hcls.
  { apply lookup_singleton_eq. }
  rewrite (YosoConfig_new_bound base pos kw p kwargs Hbind), Hbase, bind_Ok_l.
  eexists. split; [reflexivity|].
  pose proof (constructed_other o' p _ model_type_not_assigned) as Ho.
  split; [exact Ho|]. split.
  - unfold getattr. rewrite Ho.
    destruct (o' !! "model_type") as [v|]; [reflexivity|].
    by rewrite Hcls.
  - intros w Hw. apply bind_arguments_Ok in Hbind as (_ & _ & _ & ->).
    rewrite (lookup_forwarded_other _ _ _ model_type_not_token_id).
    apply lookup_unrecognized. split; [exact Hw|].
    apply model_type_not_in_signature.
Qed.

(** Without a keyword [model_type], an instance whose base initializer
    keeps its keywords reads ["yoso"]. *)
Lemma model_type_read_on_instance_witness :
  ∃ o,
    YosoConfig_new Samples.keep_keywords []
      {[ "hidden_size" := PyInt 512; "num_labels" := PyInt 3 ]} = Ok o ∧
    getattr ∅ o "model_type" = Ok (PyStr "yoso").
Proof.
  assert (({[ "hidden_size" := PyInt 512; "num_labels" := PyInt 3 ]}
             : gmap string pyval) !! "self" = None) as Hself by no_self.
  destruct (model_type_read_on_instance Samples.keep_keywords ∅ []
              {[ "hidden_size" := PyInt 512; "num_labels" := PyInt 3 ]}
              _ _ _ (bind_arguments_keywords _ Hself) eq_refl)
    as (o & Hnew & _ & Hget & _).
  exists o. split; [exact Hnew|]. rewrite Hget.
  vm_compute. reflexivity.
Defined.

(** ** Life of an instance *)

Lemma lifetime_cons self op ops :
  lifetime self (op :: ops) = lifetime (perform self op) ops.
Proof. reflexivity. Qed.

Lemma lifetime_app self ops1 ops2 :
  lifetime self (ops1 ++ ops2) = lifetime (lifetime self ops1) ops2.
Proof. apply foldl_app. Qed.

(** Operations that do not assign an attribute leave it as it is. *)
Lemma lookup_lifetime_unassigned self ops k :
  (∀ v, SetAttr k v ∉ ops) → lifetime self ops !! k = self !! k.
Proof.
  revert self. induction ops as [|op ops IH]; intros self Hops; [done|].
  rewrite lifetime_cons, IH.
  - destruct op as [name|name v]; [done|]. cbn [perform]. unfold setattr.
    apply lookup_insert_ne. intros ->. apply (Hops v), list_elem_of_here.
  - intros v Hin. by apply (Hops v), list_elem_of_further.
Qed.

(** After an assignment, the attribute holds the value assigned until
    it is assigned again. *)
Lemma lookup_lifetime_assigned self ops1 ops2 k v :
  (∀ v', SetAttr k v' ∉ ops2) →
  lifetime self (ops1 ++ SetAttr k v :: ops2) !! k = Some v.
Proof.
  intros Hops. rewrite lifetime_app, lifetime_cons.
  rewrite lookup_lifetime_unassigned by done.
  cbn [perform]. unfold setattr. apply lookup_insert_eq.
Qed.




(** * Further properties of the constructor *)

(** A run of assignments to distinct attributes is one update of the
    instance by the map of the assignments. *)
Lemma assign_all_union l self :
  NoDup l.*1 → assign_all self l = list_to_map l ∪ self.
Proof.
  revert self. induction l as [|[k v] l IH]; intros self Hnd.
  - simpl. by rewrite (left_id_L ∅ (∪)).
  - rewrite fmap_cons in Hnd. simpl in Hnd.
    apply NoDup_cons in Hnd as [Hk Hnd].
    rewrite assign_all_cons, IH by done. rewrite list_to_map_cons.
    rewrite <- insert_union_l. symmetry. apply insert_union_r.
    by apply not_elem_of_list_to_map_1.
Qed.

Lemma assign_all_Permutation l1 l2 self :
  NoDup l1.*1 → l1 ≡ₚ l2 → assign_all self l1 = assign_all self l2.
Proof.
  intros Hnd Hp. rewrite !assign_all_union; [|by rewrite <- Hp|done].
  f_equal. by apply list_to_map_proper.
Qed.

(** X4. A constructed instance is the instance the base initializer
    left, overridden by the map of the 19 assignments: its attributes are
    the 19 fields and those of the base initializer, no other, and the
    order of the 19 statements does not matter. *)
Theorem constructed_instance_closed_form
    (base : gmap string pyval → gmap string pyval → result (gmap string pyval))
    (pos : list pyval) (kw : gmap string pyval)
    (p : Params) (kwargs o' : gmap string pyval) :
  bind_arguments pos kw = Ok (p, kwargs) →
  base (forwarded p kwargs) ∅ = Ok o' →
  YosoConfig_new base pos kw = Ok (list_to_map (assignments p) ∪ o') ∧
  dom (list_to_map (assignments p) ∪ o' : gmap string pyval)
    = list_to_set assigned_names ∪ dom o' ∧
  (∀ l, l ≡ₚ assignments p →
        assign_all o' l = list_to_map (assignments p) ∪ o').
Proof.
  intros Hbind Hbase.
  assert (NoDup (assignments p).*1) as Hnd.
  { rewrite assignments_names. apply NoDup_assigned_names. }
  split_and!.
  - rewrite (YosoConfig_new_bound base pos kw p kwargs Hbind), Hbase.
    rewrite bind_Ok_l. f_equal. by apply assign_all_union.
  - rewrite dom_union_L, dom_list_to_map_L. by rewrite assignments_names.
  - intros l Hl. rewrite <- (assign_all_union _ _ Hnd).
    symmetry. by apply assign_all_Permutation.
Qed.

(** A name stands at one index of the signature. *)
Lemma parameter_index_unique i j k :
  parameter_names !! i = Some k → parameter_names !! j = Some k → i = j.
Proof. apply NoDup_lookup, NoDup_parameter_names. Qed.

Lemma argument_positional pos kw i k d v :
  pos !! i = Some v → argument pos kw i k d = v.
Proof. intros Hi. unfold argument. by rewrite Hi. Qed.

(** X1. The positional argument at index [i] is bound to the [i]-th
    parameter of the signature: for one of the 19 assigned parameters it
    ends as the attribute of that name, for a token identifier it is
    what the base initializer receives under that name. *)
Theorem positional_argument_stored
    (base : gmap string pyval → gmap string pyval → result (gmap string pyval))
    (pos : list pyval) (kw : gmap string pyval)
    (p : Params) (kwargs o' : gmap string pyval)
    (i : nat) (F : string) (V : pyval) :
  bind_arguments pos kw = Ok (p, kwargs) →
  base (forwarded p kwargs) ∅ = Ok o' →
  pos !! i = Some V →
  parameter_names !! i = Some F →
  ∃ o, YosoConfig_new base pos kw = Ok o ∧
    (F ∈ assigned_names → o !! F = Some V) ∧
    (F ∈ token_id_names → forwarded p kwargs !! F = Some V).
Proof.
  intros Hbind Hbase Hpos HF.
  rewrite (YosoConfig_new_bound base pos kw p kwargs Hbind), Hbase, bind_Ok_l.
  apply bind_arguments_Ok in Hbind as (_ & _ & -> & _).
  eexists. split; [reflexivity|]. split.
  - intros Ha.
    destruct (assigned_has_assignment (bound_parameters pos kw) F Ha)
      as [v Hv].
    rewrite (constructed_assigned o' _ F v Hv). f_equal.
    apply assignments_bound in Hv as (j & d & Hj & ->).
    rewrite (parameter_index_unique j i F Hj HF).
    by apply argument_positional.
  - intros Ht.
    destruct (token_id_has_value (bound_parameters pos kw) F Ht) as [v Hv].
    rewrite (lookup_forwarded_token _ kwargs F v Hv). f_equal.
    apply token_ids_bound in Hv as (j & d & Hj & ->).
    rewrite (parameter_index_unique j i F Hj HF).
    by apply argument_positional.
Qed.

Lemma positional_argument_stored_witness :
  ∃ o,
    YosoConfig_new Samples.keep_keywords
      [PyInt 30000; PyInt 512; PyInt 6] ∅ = Ok o ∧
    o !! "num_hidden_layers" = Some (PyInt 6).
Proof.
  assert (bind_arguments [PyInt 30000; PyInt 512; PyInt 6] ∅
          = Ok (bound_parameters [PyInt 30000; PyInt 512; PyInt 6] ∅,
                unrecognized ∅)) as Hbind.
  { apply bind_arguments_Ok. split_and!; [simpl; lia | | reflexivity..].
    repeat constructor. }
  destruct (positional_argument_stored Samples.keep_keywords
              [PyInt 30000; PyInt 512; PyInt 6] ∅ _ _ _
              2%nat "num_hidden_layers" (PyInt 6)
              Hbind eq_refl eq_refl eq_refl)
    as (o & Hnew & Hassigned & _).
  exists o. split; [exact Hnew|]. apply Hassigned. in_closed_list.
Defined.

(** Binding fails exactly for too many positional arguments or a
    parameter given twice. *)
Lemma positional_names_lookup pos k :
  k ∈ positional_names pos ↔
  ∃ i, (i < length pos)%nat ∧ parameter_names !! i = Some k.
Proof.
  unfold positional_names. rewrite list_elem_of_lookup. split.
  - intros [i Hi]. exists i. apply lookup_take_Some in Hi as [? ?]. done.
  - intros (i & Hlt & Hi). exists i. by rewrite lookup_take_lt.
Qed.

Lemma positionally_bound_lookup pos k :
  k ∈ positionally_bound pos ↔
  k = "self" ∨ ∃ i, (i < length pos)%nat ∧ parameter_names !! i = Some k.
Proof.
  unfold positionally_bound.
  by rewrite elem_of_cons, positional_names_lookup.
Qed.

(** X2. Binding the arguments fails exactly when there are more than
    22 positional arguments after the instance, or a keyword is named
    [self], or a keyword names a parameter that a positional argument
    already binds; the failure is a [TypeError] and is the outcome of
    the call whatever the base initializer. *)
Theorem binding_failure
    (pos : list pyval) (kw : gmap string pyval) :
  ((∃ e, bind_arguments pos kw = Raise e) ↔
     (length parameter_names < length pos)%nat ∨
     is_Some (kw !! "self") ∨
     ∃ i F, (i < length pos)%nat ∧ parameter_names !! i = Some F ∧
            is_Some (kw !! F)) ∧
  (∀ e, bind_arguments pos kw = Raise e →
     (∃ msg, e = TypeError msg) ∧
     ∀ base, YosoConfig_new base pos kw = Raise e).
Proof.
  split.
  - unfold bind_arguments.
    case_decide as Hlen; [split; [by left | eauto]|].
    case_decide as Hex.
    + split; [|eauto]. intros _. right.
      apply Exists_exists in Hex as (F & HF & Hkw).
      apply positionally_bound_lookup in HF as [->|(i & Hlt & Hi)];
        [by left | right; eauto].
    + split; [by intros [e [=]]|].
      intros [Hlen'|[Hself|(i & F & Hlt & Hi & Hkw)]]; [lia| |];
        exfalso; apply Hex, Exists_exists.
      * exists "self". split; [|done].
        apply positionally_bound_lookup. by left.
      * exists F. split; [|done].
        apply positionally_bound_lookup. right. eauto.
  - intros e He. split.
    + unfold bind_arguments in He.
      repeat case_decide; try discriminate He;
        apply (f_equal (λ r, match r with Raise e => e | Ok _ => e end)) in He;
        simpl in He; subst e; eauto.
    + intros base. unfold YosoConfig_new. by rewrite He.
Qed.

(** ** Positional arguments as keywords *)

Lemma positional_names_length pos :
  (length pos ≤ length parameter_names)%nat →
  length (positional_names pos) = length pos.
Proof. intros Hlen. unfold positional_names. rewrite length_take. lia. Qed.

Lemma fst_zip_positional pos :
  (length pos ≤ length parameter_names)%nat →
  (zip (positional_names pos) pos).*1 = positional_names pos.
Proof. intros Hlen. apply fst_zip. by rewrite positional_names_length. Qed.

Lemma NoDup_positional_names pos : NoDup (positional_names pos).
Proof.
  unfold positional_names.
  apply (sublist_NoDup _ parameter_names);
    [apply NoDup_parameter_names | apply sublist_take].
Qed.

(** The keyword map of the positional arguments binds each positionally
    bound parameter to its argument, and nothing else. *)
Lemma lookup_positional_keywords pos i k :
  (length pos ≤ length parameter_names)%nat →
  parameter_names !! i = Some k →
  positional_keywords pos !! k = pos !! i.
Proof.
  intros Hlen Hi. unfold positional_keywords.
  destruct (pos !! i) as [v|] eqn:Hpos.
  - apply elem_of_list_to_map.
    + rewrite fst_zip_positional by done. apply NoDup_positional_names.
    + apply list_elem_of_lookup. exists i.
      rewrite lookup_zip_with. unfold positional_names.
      rewrite lookup_take_lt by (by eapply lookup_lt_Some).
      by rewrite Hi, Hpos.
  - apply not_elem_of_list_to_map_1. rewrite fst_zip_positional by done.
    intros Hin. apply positional_names_lookup in Hin as (j & Hlt & Hj).
    rewrite (parameter_index_unique j i k Hj Hi) in Hlt.
    apply lookup_ge_None in Hpos. lia.
Qed.

Lemma positional_keywords_other pos k :
  (length pos ≤ length parameter_names)%nat →
  k ∉ parameter_names → positional_keywords pos !! k = None.
Proof.
  intros Hlen Hk. unfold positional_keywords.
  apply not_elem_of_list_to_map_1. rewrite fst_zip_positional by done.
  intros Hin. apply Hk. unfold positional_names in Hin.
  by apply (subseteq_take (length pos) parameter_names).
Qed.

Lemma argument_positional_keywords pos kw i k d :
  (length pos ≤ length parameter_names)%nat →
  parameter_names !! i = Some k →
  argument pos kw i k d = argument [] (positional_keywords pos ∪ kw) i k d.
Proof.
  intros Hlen Hi. unfold argument. rewrite lookup_nil.
  pose proof (lookup_positional_keywords pos i k Hlen Hi) as Hpk.
  destruct (pos !! i) as [v|].
  - by rewrite (lookup_union_Some_l _ _ _ _ Hpk).
  - by rewrite (lookup_union_r _ _ _ Hpk).
Qed.

Lemma bound_parameters_positional_keywords pos kw :
  (length pos ≤ length parameter_names)%nat →
  bound_parameters pos kw
    = bound_parameters [] (positional_keywords pos ∪ kw).
Proof.
  intros Hlen. unfold bound_parameters. cbv zeta.
  f_equal; by apply argument_positional_keywords.
Qed.

Lemma unrecognized_positional_keywords pos kw :
  (length pos ≤ length parameter_names)%nat →
  unrecognized kw = unrecognized (positional_keywords pos ∪ kw).
Proof.
  intros Hlen. apply map_eq. intros k.
  destruct (decide (k ∈ signature_names)) as [Hk|Hk].
  - by rewrite !unrecognized_signature.
  - rewrite !unrecognized_other by done.
    by rewrite (lookup_union_r _ _ _
                  (positional_keywords_other pos k Hlen
                     (not_signature_not_parameter k Hk))).
Qed.

Lemma self_not_parameter : "self" ∉ parameter_names.
Proof. apply (bool_decide_unpack _). vm_compute. exact I. Qed.

(** X3. A call that binds gives the same outcome as the call by
    keywords alone in which each positional argument is passed under the
    name of its parameter. *)
Theorem positional_call_as_keyword_call
    (base : gmap string pyval → gmap string pyval → result (gmap string pyval))
    (pos : list pyval) (kw : gmap string pyval)
    (p : Params) (kwargs : gmap string pyval) :
  bind_arguments pos kw = Ok (p, kwargs) →
  YosoConfig_new base pos kw
    = YosoConfig_new base [] (positional_keywords pos ∪ kw).
Proof.
  intros Hbind.
  rewrite (YosoConfig_new_bound base pos kw p kwargs Hbind).
  pose proof (bind_arguments_no_self pos kw p kwargs Hbind) as Hself.
  apply bind_arguments_Ok in Hbind as (Hlen & _ & -> & ->).
  rewrite YosoConfig_new_keywords.
  - by rewrite <- bound_parameters_positional_keywords,
               <- unrecognized_positional_keywords.
  - rewrite lookup_union_r; [exact Hself|].
    by apply positional_keywords_other, self_not_parameter.
Qed.

Lemma positional_call_as_keyword_call_witness :
  YosoConfig_new Samples.keep_keywords [PyInt 30000; PyInt 512]
    {[ "num_hash" := PyInt 32 ]}
  = YosoConfig_new Samples.keep_keywords []
      (positional_keywords [PyInt 30000; PyInt 512]
         ∪ {[ "num_hash" := PyInt 32 ]}).
Proof.
  apply (positional_call_as_keyword_call Samples.keep_keywords
           [PyInt 30000; PyInt 512] {[ "num_hash" := PyInt 32 ]}
           (bound_parameters [PyInt 30000; PyInt 512]
              {[ "num_hash" := PyInt 32 ]})
           (unrecognized {[ "num_hash" := PyInt 32 ]})).
  apply bind_arguments_Ok. split_and!; [simpl; lia | | reflexivity..].
  repeat constructor; vm_compute; reflexivity.
Defined.

(** ** What the fields depend on *)

Lemma argument_ext pos kw1 kw2 i k d :
  kw1 !! k = kw2 !! k → argument pos kw1 i k d = argument pos kw2 i k d.
Proof. intros Hk. unfold argument. by rewrite Hk. Qed.

(** The assignments read the arguments of the 19 assigned parameters
    only. *)
Lemma assignments_ext pos kw1 kw2 :
  (∀ k, k ∈ assigned_names → kw1 !! k = kw2 !! k) →
  assignments (bound_parameters pos kw1)
    = assignments (bound_parameters pos kw2).
Proof.
  intros Hagree. unfold assignments, bound_parameters.
  cbn [vocab_size hidden_size num_hidden_layers num_attention_heads
       intermediate_size hidden_act hidden_dropout_prob
       attention_probs_dropout_prob max_position_embeddings type_vocab_size
       initializer_range layer_norm_eps position_embedding_type
       use_expectation hash_code_len num_hash conv_window use_fast_hash
       lsh_backward].
  repeat (apply (f_equal2 cons);
          [apply (f_equal2 pair eq_refl), argument_ext, Hagree;
           in_closed_list|]).
  reflexivity.
Qed.

(** The base call reads the token identifiers and the unrecognized
    keywords only. *)
Lemma token_ids_ext pos kw1 kw2 :
  (∀ k, k ∈ token_id_names → kw1 !! k = kw2 !! k) →
  token_ids (bound_parameters pos kw1) = token_ids (bound_parameters pos kw2).
Proof.
  intros Hagree. unfold token_ids, bound_parameters.
  cbn [pad_token_id bos_token_id eos_token_id].
  repeat (apply (f_equal2 cons);
          [apply (f_equal2 pair eq_refl), argument_ext, Hagree;
           in_closed_list|]).
  reflexivity.
Qed.

Lemma unrecognized_ext kw1 kw2 :
  (∀ k, k ∉ parameter_names → kw1 !! k = kw2 !! k) →
  unrecognized kw1 = unrecognized kw2.
Proof.
  intros Hagree. apply map_eq. intros k.
  destruct (decide (k ∈ signature_names)) as [Hk|Hk].
  - by rewrite !unrecognized_signature.
  - rewrite !unrecognized_other by done.
    by apply Hagree, not_signature_not_parameter.
Qed.

Lemma self_not_assigned : "self" ∉ assigned_names.
Proof. apply (bool_decide_unpack _). vm_compute. exact I. Qed.

(** X5. The 19 assigned attributes depend on the arguments of the 19
    assigned parameters only: two calls by keywords that agree on these
    construct instances that agree on the 19 attributes, whatever token
    identifiers and unrecognized keywords they pass and whatever the base
    initializer does in either. *)
Theorem assigned_fields_depend_on_their_arguments
    (base1 base2 :
       gmap string pyval → gmap string pyval → result (gmap string pyval))
    (kw1 kw2 o1 o2 : gmap string pyval) :
  (∀ k, k ∈ assigned_names → kw1 !! k = kw2 !! k) →
  YosoConfig_new base1 [] kw1 = Ok o1 →
  YosoConfig_new base2 [] kw2 = Ok o2 →
  ∀ k, k ∈ assigned_names → o1 !! k = o2 !! k.
Proof.
  intros Hagree H1 H2 k Hk.
  rewrite YosoConfig_new_keywords in H1
    by (by eapply YosoConfig_new_Ok_no_self).
  rewrite YosoConfig_new_keywords in H2
    by (by eapply YosoConfig_new_Ok_no_self).
  rewrite (assignments_ext [] kw1 kw2 Hagree) in H1.
  destruct (base1 _ ∅) as [o1'|e1];
    [rewrite bind_Ok_l in H1 | rewrite bind_Raise_l in H1; discriminate H1].
  destruct (base2 _ ∅) as [o2'|e2];
    [rewrite bind_Ok_l in H2 | rewrite bind_Raise_l in H2; discriminate H2].
  apply Ok_inj in H1, H2. subst o1 o2.
  destruct (assigned_has_assignment (bound_parameters [] kw2) k Hk) as [v Hv].
  by rewrite !(constructed_assigned _ _ k v Hv).
Qed.

(** X6. What the base initializer receives depends on the token
    identifiers and the unrecognized keywords only: two calls by keywords
    that agree outside the 19 assigned parameters hand it the same
    keywords, so one raises exactly when the other does, with the same
    exception, and the instances agree on every attribute that is not
    one of the 19. *)
Theorem base_call_depends_on_the_other_arguments
    (base : gmap string pyval → gmap string pyval → result (gmap string pyval))
    (kw1 kw2 : gmap string pyval) :
  (∀ k, k ∉ assigned_names → kw1 !! k = kw2 !! k) →
  forwarded (bound_parameters [] kw1) (unrecognized kw1)
    = forwarded (bound_parameters [] kw2) (unrecognized kw2) ∧
  (∀ e, YosoConfig_new base [] kw1 = Raise e ↔
        YosoConfig_new base [] kw2 = Raise e) ∧
  (∀ o1 o2,
     YosoConfig_new base [] kw1 = Ok o1 →
     YosoConfig_new base [] kw2 = Ok o2 →
     ∀ k, k ∉ assigned_names → o1 !! k = o2 !! k).
Proof.
  intros Hagree.
  assert (forwarded (bound_parameters [] kw1) (unrecognized kw1)
          = forwarded (bound_parameters [] kw2) (unrecognized kw2)) as Hfwd.
  { unfold forwarded.
    rewrite (token_ids_ext [] kw1 kw2), (unrecognized_ext kw1 kw2).
    - reflexivity.
    - intros k Hk. apply Hagree. intros Ha.
      by apply Hk, assigned_is_parameter.
    - intros k Hk. by apply Hagree, token_id_not_assigned. }
  split; [exact Hfwd|].
  pose proof (Hagree "self" self_not_assigned) as Hself.
  destruct (kw1 !! "self") as [w|] eqn:Hself1.
  - (* both calls are rejected at binding *)
    assert (is_Some (kw1 !! "self")) as Hs1 by (rewrite Hself1; by eexists).
    assert (is_Some (kw2 !! "self")) as Hs2 by (rewrite <- Hself; by eexists).
    assert (length ([] : list pyval) ≤ length parameter_names)%nat as Hlen
      by (simpl; lia).
    rewrite (YosoConfig_new_self base [] kw1 Hlen Hs1).
    rewrite (YosoConfig_new_self base [] kw2 Hlen Hs2).
    split; [done|]. intros o1 o2 H1. discriminate H1.
  - symmetry in Hself.
    rewrite (YosoConfig_new_keywords base kw1 Hself1).
    rewrite (YosoConfig_new_keywords base kw2 Hself), Hfwd.
    destruct (base _ ∅) as [o'|e']; split.
    + intros e. by rewrite !bind_Ok_l.
    + intros o1 o2 H1 H2 k Hk. rewrite bind_Ok_l in H1, H2.
      apply Ok_inj in H1, H2. subst o1 o2.
      by rewrite !constructed_other.
    + intros e. by rewrite !bind_Raise_l.
    + intros o1 o2 H1. rewrite bind_Raise_l in H1. discriminate H1.
Qed.

Lemma assigned_fields_depend_on_their_arguments_witness :
  ∃ o1 o2,
    YosoConfig_new Samples.keep_keywords []
      {[ "hidden_size" := PyInt 512; "pad_token_id" := PyInt 7;
         "num_labels" := PyInt 3 ]} = Ok o1 ∧
    YosoConfig_new Samples.preset_hidden_size []
      {[ "hidden_size" := PyInt 512 ]} = Ok o2 ∧
    o1 !! "hidden_size" = o2 !! "hidden_size" ∧
    o1 !! "num_hash" = o2 !! "num_hash".
Proof.
  eexists _, _.
  assert (∀ o1 o2,
    YosoConfig_new Samples.keep_keywords []
      {[ "hidden_size" := PyInt 512; "pad_token_id" := PyInt 7;
         "num_labels" := PyInt 3 ]} = Ok o1 →
    YosoConfig_new Samples.preset_hidden_size []
      {[ "hidden_size" := PyInt 512 ]} = Ok o2 →
    ∀ k, k ∈ assigned_names → o1 !! k = o2 !! k) as Hagree.
  { intros o1 o2.
    apply (assigned_fields_depend_on_their_arguments
             Samples.keep_keywords Samples.preset_hidden_size).
    intros k Hk. rewrite list_elem_of_In in Hk. cbn in Hk.
    repeat (destruct Hk as [<-|Hk]; [vm_compute; reflexivity|]).
    destruct Hk. }
  split; [|split]; [| |split; eapply Hagree];
    first [ rewrite YosoConfig_new_keywords by no_self; reflexivity
          | in_closed_list ].
Defined.

Lemma base_call_depends_on_the_other_arguments_witness :
  forwarded
    (bound_parameters []
       {[ "hidden_size" := PyInt 512; "num_labels" := PyInt 3 ]})
    (unrecognized {[ "hidden_size" := PyInt 512; "num_labels" := PyInt 3 ]})
  = forwarded
      (bound_parameters []
         {[ "hidden_size" := PyInt 256; "num_labels" := PyInt 3 ]})
      (unrecognized {[ "hidden_size" := PyInt 256; "num_labels" := PyInt 3 ]}).
Proof.
  refine (proj1 (base_call_depends_on_the_other_arguments
                   Samples.keep_keywords
                   {[ "hidden_size" := PyInt 512; "num_labels" := PyInt 3 ]}
                   {[ "hidden_size" := PyInt 256; "num_labels" := PyInt 3 ]}
                   _)).
  intros k Hk.
  assert (k ≠ "hidden_size") as Hne.
  { intros ->. apply Hk. in_closed_list. }
  rewrite !(lookup_insert_ne _ "hidden_size") by (intros E; by apply Hne).
  reflexivity.
Defined.

(** ** Reading a constructed instance *)

(** X7. [__init__] does not protect the type tag: a keyword
    [model_type] names no parameter and goes to the base initializer, and
    when the base initializer leaves the instance a [model_type] of its
    own, that value, not ["yoso"], is what [model_type] reads on the
    constructed instance. *)
Theorem instance_model_type_shadows_class
    (base : gmap string pyval → gmap string pyval → result (gmap string pyval))
    (namespace : gmap string pyval)
    (pos : list pyval) (kw : gmap string pyval)
    (p : Params) (kwargs o' : gmap string pyval) (v : pyval) :
  bind_arguments pos kw = Ok (p, kwargs) →
  base (forwarded p kwargs) ∅ = Ok o' →
  o' !! "model_type" = Some v →
  (∀ w, kw !! "model_type" = Some w →
        forwarded p kwargs !! "model_type" = Some w) ∧
  ∃ o, YosoConfig_new base pos kw = Ok o ∧
       getattr namespace o "model_type" = Ok v.
Proof.
  intros Hbind Hbase Hv.
  assert ("model_type" ∉ parameter_names) as Hnp.
  { apply (bool_decide_unpack _). vm_compute. exact I. }
  split.
  - intros w Hw. apply bind_arguments_Ok in Hbind as (_ & _ & _ & ->).
    rewrite lookup_forwarded_other.
    + apply lookup_unrecognized. split; [exact Hw|].
      apply model_type_not_in_signature.
    + intros Ht. by apply Hnp, token_id_is_parameter.
  - rewrite (YosoConfig_new_bound base pos kw p kwargs Hbind), Hbase.
    rewrite bind_Ok_l. eexists. split; [reflexivity|].
    unfold getattr. rewrite constructed_other, Hv; [done|].
    intros Ha. by apply Hnp, assigned_is_parameter.
Qed.

Lemma instance_model_type_shadows_class_witness :
  ∃ o,
    YosoConfig_new Samples.keep_keywords []
      {[ "model_type" := PyStr "bert" ]} = Ok o ∧
    getattr ∅ o "model_type" = Ok (PyStr "bert").
Proof.
  assert (({[ "model_type" := PyStr "bert" ]} : gmap string pyval) !! "self"
          = None) as Hself by no_self.
  refine (proj2 (instance_model_type_shadows_class Samples.keep_keywords ∅ []
                   {[ "model_type" := PyStr "bert" ]} _ _ _ (PyStr "bert")
                   (bind_arguments_keywords _ Hself) eq_refl _)).
  vm_compute. reflexivity.
Defined.

(** X8. On every constructed instance each of the 19 fields and
    [model_type] can be read: the read never raises [AttributeError],
    whatever the arguments and the base initializer. *)
Theorem fields_and_model_type_always_readable
    (base : gmap string pyval → gmap string pyval → result (gmap string pyval))
    (namespace : gmap string pyval)
    (pos : list pyval) (kw o : gmap string pyval) (k : string) :
  YosoConfig_new base pos kw = Ok o →
  k ∈ "model_type" :: assigned_names →
  ∃ v, getattr namespace o k = Ok v.
Proof.
  intros Hnew Hk. apply elem_of_cons in Hk as [->|Hk].
  - unfold getattr. destruct (o !! "model_type") as [v|]; [eauto|].
    exists (PyStr "yoso").
    assert (YosoConfig_namespace !! "model_type" = Some (PyStr "yoso"))
      as Hcls by apply lookup_singleton_eq.
    by rewrite Hcls.
  - destruct (bind_arguments pos kw) as [[p kwargs]|e] eqn:Hbind.
    2:{ unfold YosoConfig_new in Hnew. rewrite Hbind, bind_Raise_l in Hnew.
        discriminate Hnew. }
    rewrite (YosoConfig_new_bound base pos kw p kwargs Hbind) in Hnew.
    destruct (base (forwarded p kwargs) ∅) as [o'|e'];
      [rewrite bind_Ok_l in Hnew
      |rewrite bind_Raise_l in Hnew; discriminate Hnew].
    apply Ok_inj in Hnew. subst o.
    destruct (assigned_has_assignment p k Hk) as [v Hv]. exists v.
    unfold getattr. by rewrite (constructed_assigned o' p k v Hv).
Qed.

Lemma fields_and_model_type_always_readable_witness :
  ∃ v,
    getattr ∅
      (assign_all ∅ (assignments (bound_parameters [] ∅))) "conv_window"
    = Ok v.
Proof.
  apply (fields_and_model_type_always_readable (λ _ self, Ok self) ∅ [] ∅).
  - rewrite YosoConfig_new_keywords by no_self. reflexivity.
  - in_closed_list.
Defined.

Lemma constructed_instance_closed_form_witness :
  YosoConfig_new Samples.keep_keywords [] {[ "num_labels" := PyInt 3 ]}
  = Ok (list_to_map
          (assignments (bound_parameters [] {[ "num_labels" := PyInt 3 ]}))
        ∪ (forwarded (bound_parameters [] {[ "num_labels" := PyInt 3 ]})
             (unrecognized {[ "num_labels" := PyInt 3 ]}) ∪ ∅)).
Proof.
  assert (({[ "num_labels" := PyInt 3 ]} : gmap string pyval) !! "self"
          = None) as Hself by no_self.
  exact (proj1 (constructed_instance_closed_form Samples.keep_keywords []
                  {[ "num_labels" := PyInt 3 ]} _ _ _
                  (bind_arguments_keywords _ Hself) eq_refl)).
Defined.

(** X9. A call raises in two ways only: binding its arguments raises
    (a [TypeError]), or binding succeeds and the base initializer raises
    on the keywords handed to it; the exception is then that one.  The
    call to the base initializer itself never repeats a name, and the
    assignments never raise. *)
Theorem exceptions_of_construction
    (base : gmap string pyval → gmap string pyval → result (gmap string pyval))
    (pos : list pyval) (kw : gmap string pyval) (e : exn) :
  YosoConfig_new base pos kw = Raise e ↔
    bind_arguments pos kw = Raise e ∨
    ∃ p kwargs, bind_arguments pos kw = Ok (p, kwargs) ∧
                base (forwarded p kwargs) ∅ = Raise e.
Proof.
  destruct (bind_arguments pos kw) as [[p kwargs]|e0] eqn:Hbind.
  - rewrite (YosoConfig_new_bound base pos kw p kwargs Hbind). split.
    + intros Hnew. right. exists p, kwargs. split; [done|].
      destruct (base (forwarded p kwargs) ∅) as [o'|e'];
        [rewrite bind_Ok_l in Hnew; discriminate Hnew
        |by rewrite bind_Raise_l in Hnew].
    + intros [Habs|(p' & kwargs' & Heq & Hbase)]; [discriminate Habs|].
      apply Ok_inj in Heq. injection Heq as <- <-.
      by rewrite Hbase.
  - unfold YosoConfig_new. rewrite Hbind, bind_Raise_l. split.
    + intros [= ->]. by left.
    + intros [[= ->]|(p' & kwargs' & Habs & _)]; [done | discriminate Habs].
Qed.

(** X10. The defaults the docstring states are those of the signature
    except for three parameters: [max_position_embeddings] (stated 512,
    is 4096), [type_vocab_size] (stated 2, is 1) and [use_fast_hash]
    (stated [False], is [True]). *)
Theorem documented_defaults_against_signature (k : string) (d v : pyval) :
  (k, d) ∈ documented_defaults →
  (k, v) ∈ assignments (bound_parameters [] ∅) →
  d = v ↔
    k ∉ [ "max_position_embeddings"; "type_vocab_size"; "use_fast_hash" ].
Proof.
  intros Hd Hv.
  assert (Forall (λ kd : string * pyval,
            Forall (λ kv : string * pyval,
              kd.1 = kv.1 →
              (kd.2 = kv.2 ↔
                 kd.1 ∉ [ "max_position_embeddings"; "type_vocab_size";
                          "use_fast_hash" ]))
              (assignments (bound_parameters [] ∅)))
            documented_defaults) as Hall.
  { apply (bool_decide_unpack _). vm_compute. exact I. }
  rewrite Forall_forall in Hall. specialize (Hall _ Hd).
  rewrite Forall_forall in Hall. exact (Hall _ Hv eq_refl).
Qed.

Lemma documented_defaults_against_signature_witness :
  PyInt 512 = PyInt 4096 ↔
    "max_position_embeddings"
      ∉ [ "max_position_embeddings"; "type_vocab_size"; "use_fast_hash" ].
Proof.
  apply documented_defaults_against_signature; in_closed_list.
Defined.
